(** * The interactive cluster-count explorer of 04_MachineLearning_solution.ipynb

    The notebook's last code cell binds a slider to [draw_plot], which
    clusters the iris data with K-Means and scatters the MDS layout coloured
    by cluster.  The notebook authors none of the numerical routines: K-Means,
    MDS, the palette and the scatter plot are calls into scikit-learn, seaborn
    and matplotlib.  The embedding therefore keeps these calls symbolic
    (a program is a tree of calls, in the style of a free monad) and gives
    them a meaning through a [library], a record of handlers over the state
    of the outside world.  What the libraries promise is stated as separate
    contract predicates, so that every theorem names the promises it uses. *)

From Stdlib Require Import ZArith Lia.
From stdpp Require Import base list strings.

Local Open Scope Z_scope.

(** ** Python values and exceptions *)

Module Py.

(** An exception is identified by the name of its class. *)
Inductive exception : Type := PyExc (name : string).

Definition IndexError : exception := PyExc "IndexError".
Definition ValueError : exception := PyExc "ValueError".

Inductive result (A : Type) : Type :=
| Ok (a : A)
| Exc (e : exception).
Arguments Ok {A} a.
Arguments Exc {A} e.

(** [l[i]] on a Python list: a negative index counts from the end, and
    an index outside [-len, len) raises IndexError. *)
Definition getitem {A : Type} (l : list A) (i : Z) : result A :=
  let n := Z.of_nat (length l) in
  let j := if i <? 0 then i + n else i in
  if (j <? 0) || (n <=? j) then Exc IndexError
  else match l !! Z.to_nat j with
       | Some a => Ok a
       | None => Exc IndexError
       end.

(** [[f(i) for i in l]]: elements are evaluated left to right and the
    first exception aborts the comprehension. *)
Fixpoint comprehension {A B : Type} (f : A -> result B) (l : list A)
  : result (list B) :=
  match l with
  | [] => Ok []
  | i :: l' =>
      match f i with
      | Exc e => Exc e
      | Ok b =>
          match comprehension f l' with
          | Exc e => Exc e
          | Ok bs => Ok (b :: bs)
          end
      end
  end.

End Py.
Export Py.

(** The condition the specification names for a rejected cluster count.
    No statement of the notebook raises it. *)
Definition OutOfRangeParameter : exception := PyExc "OutOfRangeParameter".

(** ** Estimator objects *)

(** [KMeans(n_clusters=..., random_state=...)]; every other constructor
    argument keeps its default.  [random_state = None] would mean "draw from
    the global generator". *)
Record KMeans : Type := {
  n_clusters : Z;
  random_state : option Z
}.

(** [manifold.MDS(n_components=..., random_state=...)]. *)
Record MDS : Type := {
  n_components : Z;
  MDS_random_state : option Z
}.

Section Notebook.

(** A row of [data.data], a coordinate of the embedding and a colour of the
    palette are floating-point data that the cell only passes along. *)
Context {sample coord color : Type}.

(** ** The notebook's global namespace (the names the cell uses) *)

Record namespace : Type := {
  data_data : list sample;            (* data.data, one row per sample *)
  mds : MDS;                          (* mds *)
  mds_pos : list (coord * coord);     (* mds_pos, an N x 2 array *)
  colors : list color                 (* colors *)
}.

Definition set_colors (v : list color) (g : namespace) : namespace :=
  {| data_data := data_data g; mds := mds g; mds_pos := mds_pos g;
     colors := v |}.

Definition set_mds_pos (v : list (coord * coord)) (g : namespace)
  : namespace :=
  {| data_data := data_data g; mds := mds g; mds_pos := v;
     colors := colors g |}.

Definition n_samples (g : namespace) : nat := length (data_data g).

(** ** Calls into the libraries *)

Inductive call : Type :=
| sns_color_palette (n_colors : Z)
| MDS_fit_embedding (m : MDS) (X : list sample)
| KMeans_fit_predict (instance : KMeans) (X : list sample)
| plt_scatter (x y : list coord) (s : Z) (c : list color).

Definition reply (c : call) : Type :=
  match c with
  | sns_color_palette _ => list color
  | MDS_fit_embedding _ _ => list (coord * coord)
  | KMeans_fit_predict _ _ => list Z
  | plt_scatter _ _ _ _ => unit
  end.

Definition is_fit_predict (c : call) : bool :=
  match c with KMeans_fit_predict _ _ => true | _ => false end.

(** ** Programs: statements of the cell as a tree of effects *)

Inductive prog (A : Type) : Type :=
| Ret (a : A)
| Raise (e : exception)
| Read (k : namespace -> prog A)                    (* read the globals *)
| Assign (f : namespace -> namespace) (k : prog A)  (* bind a global name *)
| Call (c : call) (k : reply c -> prog A).          (* library call *)
Arguments Ret {A} a.
Arguments Raise {A} e.
Arguments Read {A} k.
Arguments Assign {A} f k.
Arguments Call {A} c k.

Fixpoint bind {A B : Type} (p : prog A) (q : A -> prog B) : prog B :=
  match p with
  | Ret a => q a
  | Raise e => Raise e
  | Read k => Read (fun g => bind (k g) q)
  | Assign f k => Assign f (bind k q)
  | Call c k => Call c (fun r => bind (k r) q)
  end.

Definition read_globals : prog namespace := Read Ret.
Definition assign (f : namespace -> namespace) : prog unit :=
  Assign f (Ret tt).
Definition call_ (c : call) : prog (reply c) := Call c Ret.
Definition lift {A : Type} (r : result A) : prog A :=
  match r with
  | Ok a => Ret a
  | Exc e => Raise e
  end.

Notation "x <- p ;; q" := (bind p (fun x => q))
  (at level 100, p at next level, right associativity).
Notation "p ;;; q" := (bind p (fun _ => q))
  (at level 100, right associativity).

(** ** The cell *)

(** Lines 341 and 344, the top-level statements of the cell:
<<
      colors = sns.color_palette(n_colors=10)
      mds_pos = mds.fit(data.data).embedding_
>> *)
Definition cell_init : prog unit :=
  v <- call_ (sns_color_palette 10) ;;
  assign (set_colors v) ;;;
  g <- read_globals ;;
  pos <- call_ (MDS_fit_embedding (mds g) (data_data g)) ;;
  assign (set_mds_pos pos).

(** Lines 348 and 349, the clustering statements of [draw_plot]:
<<
      instance = KMeans(n_clusters=n_clusters, random_state = 102)
      clusters_assignment = instance.fit_predict(data.data)
>> *)
Definition clustering_step (n_clusters : Z) : prog (list Z) :=
  let instance := {| n_clusters := n_clusters; random_state := Some 102 |} in
  g <- read_globals ;;
  call_ (KMeans_fit_predict instance (data_data g)).

(** Line 350, the drawing statement of [draw_plot]:
<<
      plt.scatter(mds_pos[:, 0], mds_pos[:, 1], s=20,
                  c=[colors[i] for i in clusters_assignment])
>> *)
Definition drawing_step (clusters_assignment : list Z) : prog unit :=
  g <- read_globals ;;
  let x := (mds_pos g).*1 in
  let y := (mds_pos g).*2 in
  c <- lift (comprehension (fun i => getitem (colors g) i)
               clusters_assignment) ;;
  call_ (plt_scatter x y 20 c).

(** Lines 347 to 350:
<<
      def draw_plot(n_clusters):
          instance = KMeans(n_clusters=n_clusters, random_state = 102)
          clusters_assignment = instance.fit_predict(data.data)
          plt.scatter(mds_pos[:, 0], mds_pos[:, 1], s=20,
                      c=[colors[i] for i in clusters_assignment])
>> *)
Definition draw_plot (n_clusters : Z) : prog unit :=
  let instance := {| n_clusters := n_clusters; random_state := Some 102 |} in
  g <- read_globals ;;
  clusters_assignment <- call_ (KMeans_fit_predict instance (data_data g)) ;;
  g <- read_globals ;;
  let x := (mds_pos g).*1 in
  let y := (mds_pos g).*2 in
  c <- lift (comprehension (fun i => getitem (colors g) i)
               clusters_assignment) ;;
  call_ (plt_scatter x y 20 c).

(** Line 346, [@interact(n_clusters=(1,10))]: the pair abbreviates an
    integer slider with this minimum and maximum. *)
Definition n_clusters_slider : Z * Z := (1, 10).

(** The positions a slider [(lo, hi)] can take. *)
Definition slider_admits (sl : Z * Z) (v : Z) : bool :=
  (sl.1 <=? v) && (v <=? sl.2).

(** ** Running a program against the libraries *)

Section Run.

Context {world : Type}.

(** The handlers.  A library call sees the state of the outside world
    (the figure on screen, the global random generator), answers or
    raises, and leaves a new state.  Here arrays are passed by value;
    [ref_library] below passes them by reference for the two calls of
    [draw_plot]. *)
Record library : Type := {
  color_palette : Z -> world -> result (list color) * world;
  fit_embedding :
    MDS -> list sample -> world -> result (list (coord * coord)) * world;
  fit_predict : KMeans -> list sample -> world -> result (list Z) * world;
  scatter :
    list coord -> list coord -> Z -> list color -> world ->
    result unit * world
}.

Definition respond (L : library) (c : call)
  : world -> result (reply c) * world :=
  match c with
  | sns_color_palette n => color_palette L n
  | MDS_fit_embedding m X => fit_embedding L m X
  | KMeans_fit_predict i X => fit_predict L i X
  | plt_scatter x y s c => scatter L x y s c
  end.

Record outcome (A : Type) : Type := {
  value : result A;          (* what the program returned or raised *)
  globals : namespace;       (* the namespace it left *)
  ext_world : world;         (* the outside world it left *)
  trace : list call          (* the library calls it made, in order *)
}.
Arguments value {A} o.
Arguments globals {A} o.
Arguments ext_world {A} o.
Arguments trace {A} o.

Fixpoint run {A : Type} (L : library) (p : prog A) (g : namespace)
  (w : world) : outcome A :=
  match p with
  | Ret a => {| value := Ok a; globals := g; ext_world := w; trace := [] |}
  | Raise e =>
      {| value := Exc e; globals := g; ext_world := w; trace := [] |}
  | Read k => run L (k g) g w
  | Assign f k => run L k (f g) w
  | Call c k =>
      match respond L c w with
      | (Ok r, w') =>
          let o := run L (k r) g w' in
          {| value := value o; globals := globals o;
             ext_world := ext_world o; trace := c :: trace o |}
      | (Exc e, w') =>
          {| value := Exc e; globals := g; ext_world := w';
             trace := [c] |}
      end
  end.

(** The slider re-invokes [draw_plot] on every change; an exception of
    one invocation is reported and the session goes on. *)
Fixpoint explore (L : library) (ks : list Z) (g : namespace) (w : world)
  : namespace * world :=
  match ks with
  | [] => (g, w)
  | k :: ks' =>
      let o := run L (draw_plot k) g w in
      explore L ks' (globals o) (ext_world o)
  end.

(** The cluster assignment [draw_plot] computes for [n_clusters], as a
    result: the value of its clustering statements. *)
Definition assignment (L : library) (n_clusters : Z) (g : namespace)
  (w : world) : result (list Z) :=
  value (run L (clustering_step n_clusters) g w).

(** ** What the libraries promise

    None of these routines is part of the notebook; each promise below is
    the documented behaviour of the routine, and a theorem that relies on
    one takes it as a hypothesis. *)

(** The seeds scikit-learn accepts: none, or an integer from 0 to
    2^32 - 1. *)
Definition valid_seed (seed : option Z) : Prop :=
  match seed with
  | Some s => 0 <= s <= 4294967295
  | None => True
  end.

(** K-Means fits whenever the seed is one it accepts and there are at least
    as many samples as clusters. *)
Definition kmeans_fits (L : library) : Prop :=
  forall instance X w,
    valid_seed (random_state instance) ->
    1 <= n_clusters instance <= Z.of_nat (length X) ->
    exists ls w', fit_predict L instance X w = (Ok ls, w').

(** [fit_predict] returns one label per row, each the index of a cluster
    centre, from 0 up to [n_clusters - 1]. *)
Definition kmeans_labels (L : library) : Prop :=
  forall instance X w ls w',
    fit_predict L instance X w = (Ok ls, w') ->
    length ls = length X /\
    Forall (fun l => 0 <= l < n_clusters instance) ls.

(** With an integer [random_state] the answer of [fit_predict] is a
    function of the estimator's parameters and the data alone. *)
Definition kmeans_seeded (L : library) : Prop :=
  forall instance X w1 w2,
    is_Some (random_state instance) ->
    (fit_predict L instance X w1).1 = (fit_predict L instance X w2).1.

(** The embedding of MDS has one row per sample. *)
Definition mds_embeds (L : library) : Prop :=
  forall m X w pos w',
    fit_embedding L m X w = (Ok pos, w') -> length pos = length X.

(** [color_palette(n_colors=n)] returns as many colours as it was asked
    for.  It promises nothing on their being distinct: it repeats the current
    palette when that is shorter than [n]. *)
Definition palette_provides (L : library) : Prop :=
  forall n w cs w',
    0 <= n ->
    color_palette L n w = (Ok cs, w') -> Z.of_nat (length cs) = n.

(** ** The behaviour the specification words for a rejected count

    "the call fails with an OutOfRangeParameter condition before any
    clustering computation, and the previous rendered state is retained
    unchanged". *)
Definition rejected (L : library) (k : Z) (g : namespace) (w : world)
  : Prop :=
  let o := run L (draw_plot k) g w in
  value o = Exc OutOfRangeParameter /\
  existsb is_fit_predict (trace o) = false /\
  ext_world o = w.

(** ** The redraw as the specification words it

    "a full redraw that clears the prior plot and draws one point per sample
    at its fixed Point Layout coordinate, colored by
    Color Palette[assignment[i]]": what is [rendered] after the call is these
    markers and no others. *)
Definition redrawn_in_full (L : library)
  (rendered : world -> list (coord * coord * color)) (k : Z)
  (g : namespace) (w : world) : Prop :=
  exists ls c,
    assignment L k g w = Ok ls /\
    comprehension (fun i => getitem (colors g) i) ls = Ok c /\
    rendered (ext_world (run L (draw_plot k) g w)) = zip (mds_pos g) c.

(** ** The palette as the specification words it

    "an ordered sequence of at least 10 distinct colors". *)
Definition ten_distinct_colors (g : namespace) : Prop :=
  (10 <= length (colors g))%nat /\ NoDup (colors g).

(** ** Arrays by reference

    Python hands [data.data] and the two column views of [mds_pos] to the
    libraries by reference, so a library could write into them.  A
    [ref_library] makes this visible for the two calls of [draw_plot]: each
    handler also returns the arrays it was handed, as the call left them.
    The colours are tuples, which cannot be written into, and the list of
    colours and the estimator are made afresh by each call. *)
Record ref_library : Type := {
  fit_predict_ref :
    KMeans -> list sample -> world ->
    result (list Z) * list sample * world;
  scatter_ref :
    list coord -> list coord -> Z -> list color -> world ->
    result unit * (list coord * list coord) * world
}.

Definition set_data_data (v : list sample) (g : namespace) : namespace :=
  {| data_data := v; mds := mds g; mds_pos := mds_pos g;
     colors := colors g |}.

(** Lines 347 to 350 once more, with the arrays written back as the calls
    left them: [data.data] after [fit_predict], the two columns of [mds_pos]
    after [scatter]. *)
Definition draw_plot_ref (R : ref_library) (n_clusters : Z) (g : namespace)
  (w : world) : outcome unit :=
  let instance := {| n_clusters := n_clusters; random_state := Some 102 |} in
  let fit := KMeans_fit_predict instance (data_data g) in
  let '(r, X', w1) := fit_predict_ref R instance (data_data g) w in
  let g1 := set_data_data X' g in
  match r with
  | Exc e =>
      {| value := Exc e; globals := g1; ext_world := w1; trace := [fit] |}
  | Ok clusters_assignment =>
      let x := (mds_pos g1).*1 in
      let y := (mds_pos g1).*2 in
      match comprehension (fun i => getitem (colors g1) i)
              clusters_assignment with
      | Exc e =>
          {| value := Exc e; globals := g1; ext_world := w1;
             trace := [fit] |}
      | Ok c =>
          let '(r2, (x', y'), w2) := scatter_ref R x y 20 c w1 in
          {| value := r2; globals := set_mds_pos (zip x' y') g1;
             ext_world := w2; trace := [fit; plt_scatter x y 20 c] |}
      end
  end.

(** The by-value library a [ref_library] gives when what it did to the
    arrays is forgotten; the palette and MDS handlers come from [L0]. *)
Definition by_value (R : ref_library) (L0 : library) : library := {|
  color_palette := color_palette L0;
  fit_embedding := fit_embedding L0;
  fit_predict instance X w :=
    let '(r, _, w1) := fit_predict_ref R instance X w in (r, w1);
  scatter x y s c w :=
    let '(r, _, w1) := scatter_ref R x y s c w in (r, w1)
|}.

(** With the default [copy_x=True], which the notebook keeps, K-Means
    works on a copy and leaves the array it was handed untouched. *)
Definition keeps_features (R : ref_library) : Prop :=
  forall instance X w, (fit_predict_ref R instance X w).1.2 = X.

(** [scatter] reads its coordinates and does not write into them. *)
Definition keeps_points (R : ref_library) : Prop :=
  forall x y s c w, (scatter_ref R x y s c w).1.2 = (x, y).

(** With an integer [random_state] K-Means draws from a generator of its
    own and leaves the outside world as it found it. *)
Definition fit_is_pure (R : ref_library) : Prop :=
  forall instance X w,
    is_Some (random_state instance) ->
    (fit_predict_ref R instance X w).2 = w.

End Run.

End Notebook.

Arguments namespace : clear implicits.
Arguments call : clear implicits.
Arguments prog : clear implicits.
Arguments library : clear implicits.
Arguments outcome : clear implicits.
Arguments ref_library : clear implicits.
Arguments value {sample coord color world A} o.
Arguments globals {sample coord color world A} o.
Arguments ext_world {sample coord color world A} o.
Arguments trace {sample coord color world A} o.
Arguments Ret {sample coord color A} a.
Arguments Raise {sample coord color A} e.
Arguments Read {sample coord color A} k.
Arguments Assign {sample coord color A} f k.
Arguments Call {sample coord color A} c k.

(** ** A small concrete session

    Integer rows, integer coordinates and colour codes, and stand-ins for the
    four library routines that keep the promises above; the world is the
    list of markers on screen. *)

Module Demo.

Definition sample : Type := list Z.
Definition world : Type := list (Z * Z * Z).

Definition lib : library sample Z Z world := {|
  color_palette n w :=
    if 0 <=? n then (Ok (Z.of_nat <$> seq 0 (Z.to_nat n)), w)
    else (Exc ValueError, w);
  fit_embedding m X w :=
    (Ok ((fun row : sample => (nth 0 row 0, nth 1 row 0)) <$> X), w);
  fit_predict instance X w :=
    if (1 <=? n_clusters instance)
       && (n_clusters instance <=? Z.of_nat (length X))
    then (Ok ((fun i => Z.of_nat i mod n_clusters instance)
                <$> seq 0 (length X)), w)
    else (Exc ValueError, w);
  scatter x y s c w := (Ok tt, zip (zip x y) c)
|}.

(** Twelve samples; the palette and the layout are those of the earlier
    cells (six colours, no layout yet) until [cell_init] rebinds them. *)
Definition g0 : namespace sample Z Z := {|
  data_data := (fun i => [Z.of_nat i; 2 * Z.of_nat i]) <$> seq 0 12;
  mds := {| n_components := 2; MDS_random_state := Some 5 |};
  mds_pos := [];
  colors := [0; 1; 2; 3; 4; 5]
|}.

Definition w0 : world := [].

(** The session once the top of the cell has run. *)
Definition g : namespace sample Z Z := globals (run lib cell_init g0 w0).

End Demo.

(** ** A session closer to the notebook's libraries

    The palette repeats a cycle of six colours, as [color_palette] does over
    a six-colour current palette; [scatter] refuses colour lists that do not
    match the points and otherwise adds its markers to those on screen, as
    [plt.scatter] adds to the current axes. *)

Module Pyplot.

Definition sample : Type := list Z.
Definition world : Type := list (Z * Z * Z).

Definition lib : library sample Z Z world := {|
  color_palette n w :=
    (Ok ((fun i => Z.of_nat (i mod 6)) <$> seq 0 (Z.to_nat n)), w);
  fit_embedding m X w :=
    (Ok ((fun row : sample => (nth 0 row 0, nth 1 row 0)) <$> X), w);
  fit_predict instance X w :=
    if (1 <=? n_clusters instance)
       && (n_clusters instance <=? Z.of_nat (length X))
    then (Ok ((fun i => Z.of_nat i mod n_clusters instance)
                <$> seq 0 (length X)), w)
    else (Exc ValueError, w);
  scatter x y s c w :=
    if (length x =? length y)%nat && (length x =? length c)%nat
    then (Ok tt, w ++ zip (zip x y) c)
    else (Exc ValueError, w)
|}.

(** The same routines with the arrays handed back untouched. *)
Definition ref : ref_library sample Z Z world := {|
  fit_predict_ref instance X w :=
    let '(r, w1) := fit_predict lib instance X w in (r, X, w1);
  scatter_ref x y s c w :=
    let '(r, w1) := scatter lib x y s c w in (r, (x, y), w1)
|}.

Definition rendered (w : world) : list (Z * Z * Z) := w.

Definition g0 : namespace sample Z Z := Demo.g0.

Definition w0 : world := [].

(** The session once the top of the cell has run. *)
Definition g : namespace sample Z Z := globals (run lib cell_init g0 w0).

(** The world after the slider has been at 2. *)
Definition w2 : world := ext_world (run lib (draw_plot 2) g w0).

End Pyplot.

(** ** Indexing, spelled out *)

(** The integers that index a Python list of the length of [l]. *)
Definition indexes {A : Type} (l : list A) (i : Z) : Prop :=
  - Z.of_nat (length l) <= i < Z.of_nat (length l).

(** The position from the front that index [i] denotes in a list of length
    [n]: a negative index counts from the end. *)
Definition position (n i : Z) : Z := if i <? 0 then i + n else i.

(** ** The legend of the MDS plot *)

(** [range(n)]. *)
Definition range (n : Z) : list Z := Z.of_nat <$> seq 0 (Z.to_nat n).

(** [mpatches.Patch(color=..., label=...)], with the two keyword arguments
    the notebook passes. *)
Record Patch (color name : Type) : Type := {
  patch_color : color;
  patch_label : name
}.
Arguments Build_Patch {color name} _ _.
Arguments patch_color {color name} _.
Arguments patch_label {color name} _.

(** Line 284:
<<
      patches = [ mpatches.Patch(color=colors[i], label=data.target_names[i])
                  for i in range(3) ]
>>
    The keyword arguments are evaluated left to right. *)
Definition legend_patches {color name : Type} (colors : list color)
  (target_names : list name) : result (list (Patch color name)) :=
  comprehension
    (fun i =>
       match getitem colors i with
       | Exc e => Exc e
       | Ok c =>
           match getitem target_names i with
           | Exc e => Exc e
           | Ok n => Ok {| patch_color := c; patch_label := n |}
           end
       end)
    (range 3).

(** ** Facts about indexing and comprehensions *)

Section PyFacts.

Context {A B : Type}.

Lemma getitem_in_range (l : list A) (i : Z) :
  0 <= i < Z.of_nat (length l) ->
  exists a, getitem l i = Ok a /\ l !! Z.to_nat i = Some a.
Proof.
  intros Hi. unfold getitem.
  destruct (Z.ltb_spec i 0) as [Hneg|_]; [lia|].
  destruct (Z.ltb_spec i 0) as [Hneg|_]; [lia|].
  destruct (Z.leb_spec (Z.of_nat (length l)) i) as [Hge|_]; [lia|].
  simpl. destruct (l !! Z.to_nat i) as [a|] eqn:Hl.
  - exists a. split; reflexivity.
  - apply lookup_ge_None in Hl. lia.
Qed.

Lemma getitem_Ok_nonneg (l : list A) (i : Z) (a : A) :
  0 <= i -> getitem l i = Ok a -> l !! Z.to_nat i = Some a.
Proof.
  intros Hi. unfold getitem.
  destruct (Z.ltb_spec i 0) as [Hneg|_]; [lia|].
  destruct (_ || _); [discriminate|].
  destruct (l !! Z.to_nat i); [|discriminate].
  intros [= ->]. reflexivity.
Qed.

Lemma getitem_raises (l : list A) (i : Z) (e : exception) :
  getitem l i = Exc e -> e = IndexError.
Proof.
  unfold getitem. destruct (_ || _); [intros [= <-]; reflexivity|].
  destruct (l !! _); [discriminate|]. intros [= <-]. reflexivity.
Qed.

Lemma comprehension_Ok (f : A -> result B) (l : list A) (bs : list B) :
  comprehension f l = Ok bs -> Forall2 (fun i b => f i = Ok b) l bs.
Proof.
  revert bs. induction l as [|i l IH]; simpl; intros bs.
  - intros [= <-]. constructor.
  - destruct (f i) as [b|e] eqn:Hf; [|discriminate].
    destruct (comprehension f l) as [bs'|e]; [|discriminate].
    intros [= <-]. constructor; [assumption|]. apply IH. reflexivity.
Qed.

Lemma comprehension_total (f : A -> result B) (l : list A) :
  Forall (fun i => exists b, f i = Ok b) l ->
  exists bs, comprehension f l = Ok bs.
Proof.
  induction 1 as [|i l [b Hb] _ [bs IH]]; simpl.
  - exists []. reflexivity.
  - rewrite Hb, IH. exists (b :: bs). reflexivity.
Qed.

Lemma comprehension_raises (f : A -> result B) (l : list A)
  (e0 e : exception) :
  (forall i e', f i = Exc e' -> e' = e0) ->
  comprehension f l = Exc e -> e = e0.
Proof.
  intros Hf. induction l as [|i l IH]; simpl; [discriminate|].
  destruct (f i) as [b|e'] eqn:Hi.
  - destruct (comprehension f l) as [bs|e']; [discriminate|].
    intros [= <-]. apply IH. reflexivity.
  - intros [= <-]. eapply Hf, Hi.
Qed.

End PyFacts.

(** The colour lookup of line 350 succeeds on labels that index the
    palette, and pairs every label with its palette entry. *)
Lemma color_lookup_total {color : Type} (cs : list color) (ls : list Z) :
  Forall (fun l => 0 <= l < Z.of_nat (length cs)) ls ->
  exists c, comprehension (fun i => getitem cs i) ls = Ok c.
Proof.
  intros H. apply comprehension_total.
  eapply Forall_impl; [exact H|]. intros l Hl. simpl.
  destruct (getitem_in_range cs l Hl) as (a & Ha & _). eauto.
Qed.

Lemma color_lookup_entries {color : Type} (cs : list color) (ls : list Z)
  (c : list color) :
  Forall (fun l => 0 <= l) ls ->
  comprehension (fun i => getitem cs i) ls = Ok c ->
  length c = length ls /\
  forall (i : nat) (l : Z), ls !! i = Some l -> c !! i = cs !! Z.to_nat l.
Proof.
  intros Hpos Hc. apply comprehension_Ok in Hc.
  split; [symmetry; eapply Forall2_length, Hc|].
  intros i l Hl.
  destruct (Forall2_lookup_l _ _ _ _ _ Hc Hl) as (a & Ha & Hget).
  rewrite Ha. symmetry. apply getitem_Ok_nonneg; [|exact Hget].
  eapply (Forall_lookup_1 _ _ _ _ Hpos), Hl.
Qed.

(** ** Running the cell *)

Section RunFacts.

Context {sample coord color world : Type}.
Implicit Types (L : library sample coord color world).
Implicit Types (g : namespace sample coord color) (w : world) (k : Z).

(** [draw_plot] is its clustering statements followed by its drawing
    statement. *)
Lemma draw_plot_steps k :
  draw_plot (sample := sample) (coord := coord) (color := color) k
  = bind (clustering_step k) drawing_step.
Proof. reflexivity. Qed.

Lemma run_clustering_step L k g w :
  run L (clustering_step k) g w =
  let c := KMeans_fit_predict
             {| n_clusters := k; random_state := Some 102 |} (data_data g) in
  let '(r, w1) := fit_predict L
             {| n_clusters := k; random_state := Some 102 |} (data_data g) w in
  {| value := r; globals := g; ext_world := w1; trace := [c] |}.
Proof.
  unfold clustering_step. simpl.
  destruct (fit_predict L _ _ w) as [[ls|e] w1]; reflexivity.
Qed.

(** The three ways a call of [draw_plot] can go: the clustering raises, the
    colour lookup raises, or the scatter call is made. *)
Lemma run_draw_plot L k g w :
  run L (draw_plot k) g w =
  let instance := {| n_clusters := k; random_state := Some 102 |} in
  let fit := KMeans_fit_predict instance (data_data g) in
  match fit_predict L instance (data_data g) w with
  | (Exc e, w1) =>
      {| value := Exc e; globals := g; ext_world := w1; trace := [fit] |}
  | (Ok ls, w1) =>
      match comprehension (fun i => getitem (colors g) i) ls with
      | Exc e =>
          {| value := Exc e; globals := g; ext_world := w1; trace := [fit] |}
      | Ok c =>
          let '(r, w2) :=
            scatter L (mds_pos g).*1 (mds_pos g).*2 20 c w1 in
          {| value := r; globals := g; ext_world := w2;
             trace := [fit; plt_scatter (mds_pos g).*1 (mds_pos g).*2 20 c] |}
      end
  end.
Proof.
  unfold draw_plot. simpl.
  destruct (fit_predict L _ _ w) as [[ls|e] w1]; [|reflexivity].
  simpl. destruct (comprehension _ ls) as [c|e]; [|reflexivity].
  simpl. destruct (scatter L _ _ 20 c w1) as [[[]|e] w2]; reflexivity.
Qed.

Lemma draw_plot_globals L k g w : globals (run L (draw_plot k) g w) = g.
Proof.
  rewrite run_draw_plot. simpl.
  destruct (fit_predict L _ _ w) as [[ls|e] w1]; [|reflexivity].
  destruct (comprehension _ ls) as [c|e]; [|reflexivity].
  destruct (scatter L _ _ 20 c w1) as [r w2]. reflexivity.
Qed.

Lemma explore_globals L (ks : list Z) g w : (explore L ks g w).1 = g.
Proof.
  revert g w. induction ks as [|k ks IH]; intros g w; simpl; [reflexivity|].
  rewrite IH. apply draw_plot_globals.
Qed.

(** What the top of the cell leaves behind when it succeeds. *)
Lemma run_cell_init L g0 w0 :
  value (run L cell_init g0 w0) = Ok tt ->
  exists cs w1 pos w2,
    color_palette L 10 w0 = (Ok cs, w1) /\
    fit_embedding L (mds g0) (data_data g0) w1 = (Ok pos, w2) /\
    globals (run L cell_init g0 w0) =
      {| data_data := data_data g0; mds := mds g0; mds_pos := pos;
         colors := cs |}.
Proof.
  unfold cell_init. simpl.
  destruct (color_palette L 10 w0) as [[cs|e] w1] eqn:Hpal; simpl;
    [|discriminate].
  destruct (fit_embedding L (mds g0) (data_data g0) w1) as [[pos|e] w2]
    eqn:Hmds; simpl; [|discriminate].
  intros _. exists cs, w1, pos, w2.
  split; [reflexivity|split; [exact Hmds|reflexivity]].
Qed.

Lemma seeded_assignment L k g w1 w2 :
  kmeans_seeded L -> assignment L k g w1 = assignment L k g w2.
Proof.
  intros Hseed. unfold assignment. rewrite !run_clustering_step. simpl.
  specialize (Hseed {| n_clusters := k; random_state := Some 102 |}
                (data_data g) w1 w2 (mk_is_Some _ _ eq_refl)).
  destruct (fit_predict L _ _ w1), (fit_predict L _ _ w2). exact Hseed.
Qed.

Lemma assignment_fit L k g w ls :
  assignment L k g w = Ok ls <->
  exists w1, fit_predict L {| n_clusters := k; random_state := Some 102 |}
               (data_data g) w = (Ok ls, w1).
Proof.
  unfold assignment. rewrite run_clustering_step. simpl.
  destruct (fit_predict L _ _ w) as [r w1]. simpl. split.
  - intros ->. eauto.
  - intros [w1' [= -> _]]. reflexivity.
Qed.

End RunFacts.

(** ** Properties of the explorer *)

Section Explorer.

Context {sample coord color world : Type}.
Implicit Types (L : library sample coord color world).
Implicit Types (g : namespace sample coord color) (w : world) (k : Z).

Lemma slider_range (v : Z) :
  slider_admits n_clusters_slider v = true <-> 1 <= v <= 10.
Proof.
  unfold slider_admits, n_clusters_slider. simpl.
  rewrite andb_true_iff, Z.leb_le, Z.leb_le. reflexivity.
Qed.

Lemma draw_plot_trace_seeded L k g w1 w2 :
  kmeans_seeded L ->
  trace (run L (draw_plot k) g w1) = trace (run L (draw_plot k) g w2).
Proof.
  intros Hseed. rewrite !run_draw_plot. simpl.
  specialize (Hseed {| n_clusters := k; random_state := Some 102 |}
                (data_data g) w1 w2 (mk_is_Some _ _ eq_refl)).
  destruct (fit_predict L _ _ w1) as [r1 v1], (fit_predict L _ _ w2) as [r2 v2].
  simpl in Hseed. subst r2. destruct r1 as [ls|e]; [|reflexivity].
  destruct (comprehension _ ls) as [c|e]; [|reflexivity].
  destruct (scatter L _ _ 20 c v1), (scatter L _ _ 20 c v2). reflexivity.
Qed.

Lemma labels_all_zero (ls : list Z) :
  Forall (fun l => 0 <= l < 1) ls -> ls = replicate (length ls) 0.
Proof.
  induction 1 as [|l ls Hl _ IH]; simpl; [reflexivity|].
  f_equal; [lia|exact IH].
Qed.

Lemma assignment_labels L k g w (ls : list Z) :
  kmeans_labels L -> assignment L k g w = Ok ls ->
  length ls = n_samples g /\ Forall (fun l => 0 <= l < k) ls.
Proof.
  intros Hlab Hls. apply assignment_fit in Hls as [w1 Hls].
  exact (Hlab _ _ _ _ _ Hls).
Qed.

Lemma assignment_exists L k g w :
  kmeans_fits L -> 1 <= k -> k <= Z.of_nat (n_samples g) ->
  exists ls, assignment L k g w = Ok ls.
Proof.
  intros Hfit Hk Hn.
  destruct (Hfit {| n_clusters := k; random_state := Some 102 |}
              (data_data g) w) as (ls & w1 & Hls);
    [simpl; lia|unfold n_samples in Hn; simpl; lia|].
  exists ls. apply assignment_fit. eauto.
Qed.

(** Whatever its argument, [draw_plot] starts with the clustering call for
    that very argument and the seed 102. *)
Lemma draw_plot_first_call L k g w :
  hd_error (trace (run L (draw_plot k) g w)) =
  Some (KMeans_fit_predict
          {| n_clusters := k; random_state := Some 102 |} (data_data g)).
Proof.
  rewrite run_draw_plot. cbv zeta.
  destruct (fit_predict L _ (data_data g) w) as [[ls|e] w1]; [|reflexivity].
  destruct (comprehension _ ls) as [c|e]; [|reflexivity].
  destruct (scatter L _ _ 20 c w1). reflexivity.
Qed.

(** C1, as amended.  [draw_plot] checks nothing and has no
    OutOfRangeParameter of its own: for every integer [k], inside or outside
    1..10, its first action is the clustering call with [n_clusters = k].
    The call fails exactly when the clustering call raises, the colour
    lookup raises IndexError, or the scatter call itself raises; in the
    first two cases no scatter call is made, so nothing is redrawn.  Counts
    outside 1..10 are kept out by the slider range alone. *)
Theorem draw_plot_unchecked L k g w :
  let instance := {| n_clusters := k; random_state := Some 102 |} in
  let fit := KMeans_fit_predict instance (data_data g) in
  let x := (mds_pos g).*1 in
  let y := (mds_pos g).*2 in
  let o := run L (draw_plot k) g w in
  hd_error (trace o) = Some fit /\
  (forall e w1,
     fit_predict L instance (data_data g) w = (Exc e, w1) ->
     value o = Exc e /\ trace o = [fit] /\ ext_world o = w1) /\
  (forall ls w1 e,
     fit_predict L instance (data_data g) w = (Ok ls, w1) ->
     comprehension (fun i => getitem (colors g) i) ls = Exc e ->
     e = IndexError /\
     value o = Exc IndexError /\ trace o = [fit] /\ ext_world o = w1) /\
  (forall ls w1 c,
     fit_predict L instance (data_data g) w = (Ok ls, w1) ->
     comprehension (fun i => getitem (colors g) i) ls = Ok c ->
     trace o = [fit; plt_scatter x y 20 c] /\
     (value o, ext_world o) = scatter L x y 20 c w1) /\
  (forall e,
     value o = Exc e ->
     (exists w1, fit_predict L instance (data_data g) w = (Exc e, w1)) \/
     (e = IndexError /\
      exists ls w1,
        fit_predict L instance (data_data g) w = (Ok ls, w1) /\
        comprehension (fun i => getitem (colors g) i) ls = Exc IndexError) \/
     (exists ls w1 c w2,
        fit_predict L instance (data_data g) w = (Ok ls, w1) /\
        comprehension (fun i => getitem (colors g) i) ls = Ok c /\
        scatter L x y 20 c w1 = (Exc e, w2))) /\
  (slider_admits n_clusters_slider k = true <-> 1 <= k <= 10).
Proof.
  intros instance fit x y o.
  split; [apply draw_plot_first_call|].
  subst o. rewrite run_draw_plot. fold instance. fold fit. cbv zeta.
  fold x. fold y.
  split; [|split; [|split; [|split]]].
  - intros e w1 ->. auto.
  - intros ls w1 e -> Hc.
    assert (e = IndexError) as ->.
    { eapply comprehension_raises; [|exact Hc].
      intros i e'. apply getitem_raises. }
    rewrite Hc. auto.
  - intros ls w1 c -> ->.
    destruct (scatter L x y 20 c w1) as [r w2]. split; reflexivity.
  - intros e.
    destruct (fit_predict L instance (data_data g) w) as [[ls|e1] w1].
    + destruct (comprehension _ ls) as [c|e2] eqn:Hc.
      * destruct (scatter L x y 20 c w1) as [[[]|e3] w2] eqn:Hsc; simpl;
          [discriminate|].
        intros [= ->]. right. right. exists ls, w1, c, w2. auto.
      * simpl. intros [= ->].
        assert (e = IndexError) as ->.
        { eapply comprehension_raises; [|exact Hc].
          intros i e'. apply getitem_raises. }
        right. left. split; [reflexivity|]. exists ls, w1. auto.
    + simpl. intros [= ->]. left. exists w1. reflexivity.
  - apply slider_range.
Qed.

(** C2.  For a valid count [k], every label of the assignment that the
    clustering statements return lies in 0..k-1, so none reaches 10; and an
    assignment is returned whenever the data set has at least [k] samples. *)
Theorem assignment_labels_in_range L k g w :
  kmeans_labels L -> 1 <= k <= 10 ->
  (forall ls : list Z,
     assignment L k g w = Ok ls ->
     Forall (fun l => 0 <= l < k) ls /\ Forall (fun l => l < 10) ls) /\
  (kmeans_fits L -> k <= Z.of_nat (n_samples g) ->
   exists ls, assignment L k g w = Ok ls).
Proof.
  intros Hlab [Hk1 Hk10]. split.
  - intros ls Hls.
    destruct (assignment_labels L k g w ls Hlab Hls) as [_ Hrange].
    split; [exact Hrange|].
    eapply Forall_impl; [exact Hrange|]. simpl. intros l Hl. lia.
  - intros Hfit Hn. apply assignment_exists; assumption.
Qed.

(** C3.  Once the top of the cell has run, the point layout has one row per
    sample, and for a valid count the assignment has one label per sample,
    hence as many labels as the layout has points; an assignment is returned
    whenever the data set has at least [k] samples. *)
Theorem assignment_one_label_per_sample L g0 w0 k w :
  kmeans_labels L -> mds_embeds L ->
  value (run L cell_init g0 w0) = Ok tt ->
  1 <= k <= 10 ->
  let g := globals (run L cell_init g0 w0) in
  length (mds_pos g) = n_samples g /\
  (forall ls : list Z,
     assignment L k g w = Ok ls ->
     length ls = n_samples g /\ length ls = length (mds_pos g)) /\
  (kmeans_fits L -> k <= Z.of_nat (n_samples g) ->
   exists ls, assignment L k g w = Ok ls).
Proof.
  intros Hlab Hmds Hinit [Hk1 Hk10] g.
  destruct (run_cell_init L g0 w0 Hinit)
    as (cs & w1 & pos & w2 & _ & Hpos & Hg).
  fold g in Hg.
  assert (length (mds_pos g) = n_samples g) as Hlayout.
  { rewrite Hg. unfold n_samples. simpl. eapply Hmds, Hpos. }
  split; [exact Hlayout|]. split.
  - intros ls Hls.
    destruct (assignment_labels L k g w ls Hlab Hls) as [Hlen _].
    split; [exact Hlen|]. rewrite Hlayout. exact Hlen.
  - intros Hfit Hn. apply assignment_exists; assumption.
Qed.

(** C4.  Every call of [draw_plot] builds its estimator with
    [random_state = 102], whatever the count; with a seeded K-Means, calling
    [draw_plot k] twice in a row computes the same assignment and makes the
    same library calls, colours included. *)
Theorem same_count_same_assignment L k g w :
  kmeans_seeded L ->
  let o1 := run L (draw_plot k) g w in
  let o2 := run L (draw_plot k) (globals o1) (ext_world o1) in
  assignment L k (globals o1) (ext_world o1) = assignment L k g w /\
  trace o2 = trace o1 /\
  forall k' : Z,
    hd_error (trace (run L (draw_plot k') g w)) =
    Some (KMeans_fit_predict
            {| n_clusters := k'; random_state := Some 102 |} (data_data g)).
Proof.
  intros Hseed o1 o2. subst o2 o1. rewrite draw_plot_globals.
  split; [apply seeded_assignment, Hseed|].
  split; [apply draw_plot_trace_seeded, Hseed|].
  intros k'. apply draw_plot_first_call.
Qed.

(** C5.  With one cluster, an assignment that is returned is all zeros,
    one per sample; and it is returned as soon as there is a sample. *)
Theorem single_cluster_all_zero L g w :
  kmeans_labels L ->
  (forall ls : list Z,
     assignment L 1 g w = Ok ls ->
     ls = replicate (n_samples g) 0 /\ length ls = n_samples g) /\
  (kmeans_fits L -> (1 <= n_samples g)%nat ->
   assignment L 1 g w = Ok (replicate (n_samples g) 0)).
Proof.
  intros Hlab.
  assert (forall ls : list Z, assignment L 1 g w = Ok ls ->
                              ls = replicate (n_samples g) 0) as Hzero.
  { intros ls Hls.
    destruct (assignment_labels L 1 g w ls Hlab Hls) as [Hlen Hrange].
    rewrite <- Hlen. apply labels_all_zero, Hrange. }
  split.
  - intros ls Hls. split; [apply Hzero, Hls|].
    apply (assignment_labels L 1 g w ls Hlab Hls).
  - intros Hfit Hn.
    destruct (assignment_exists L 1 g w Hfit) as [ls Hls]; [lia|lia|].
    rewrite Hls. f_equal. apply Hzero, Hls.
Qed.


(** C7, as amended.  The palette bound at the top of the cell has exactly
    ten colours (nothing makes them distinct); no sequence of slider changes
    rebinds it; and after any such sequence every label of an assignment for
    a valid count indexes it, so the colour lookup of [draw_plot] succeeds
    and the scatter call is reached. *)
Theorem palette_fixed_and_indexable L g0 w0 :
  palette_provides L -> kmeans_labels L ->
  value (run L cell_init g0 w0) = Ok tt ->
  let g := globals (run L cell_init g0 w0) in
  length (colors g) = 10%nat /\
  (forall (ks : list Z) w, colors (explore L ks g w).1 = colors g) /\
  (forall (ks : list Z) w k ls w1,
     let s := explore L ks g w in
     let instance := {| n_clusters := k; random_state := Some 102 |} in
     1 <= k <= 10 ->
     fit_predict L instance (data_data s.1) s.2 = (Ok ls, w1) ->
     Forall (fun l => 0 <= l < Z.of_nat (length (colors s.1))) ls /\
     exists c,
       comprehension (fun i => getitem (colors s.1) i) ls = Ok c /\
       trace (run L (draw_plot k) s.1 s.2) =
         [KMeans_fit_predict instance (data_data s.1);
          plt_scatter (mds_pos s.1).*1 (mds_pos s.1).*2 20 c]).
Proof.
  intros Hpal Hlab Hinit g.
  destruct (run_cell_init L g0 w0 Hinit)
    as (cs & v1 & pos & v2 & Hcs & _ & Hg).
  fold g in Hg.
  assert (colors g = cs) as Hcolors by (rewrite Hg; reflexivity).
  assert (Z.of_nat (length (colors g)) = 10) as Hten
    by (rewrite Hcolors; apply (Hpal 10 _ _ _ ltac:(lia) Hcs)).
  split; [lia|].
  split; [intros ks w; rewrite explore_globals; reflexivity|].
  intros ks w k ls w1 s instance [Hk1 Hk10].
  assert (s.1 = g) as -> by apply explore_globals.
  intros Hls.
  destruct (Hlab _ _ _ _ _ Hls) as [_ Hrange]. simpl in Hrange.
  assert (Forall (fun l => 0 <= l < Z.of_nat (length (colors g))) ls)
    as Hidx.
  { eapply Forall_impl; [exact Hrange|]. simpl. intros l Hl. lia. }
  split; [exact Hidx|].
  destruct (color_lookup_total (colors g) ls Hidx) as [c Hc].
  exists c. split; [exact Hc|].
  rewrite run_draw_plot. cbv zeta. fold instance. rewrite Hls, Hc.
  destruct (scatter L _ _ 20 c w1). reflexivity.
Qed.

(** C8.  A call of [draw_plot] writes into nothing it reads.  Even when the
    libraries are free to write into the arrays they are handed: [colors]
    and [mds] are handed to no call and stay as they are; [data.data] is
    handed to the clustering call alone and stays as that call leaves it,
    untouched under the default [copy_x]; [mds_pos] is handed to the scatter
    call alone and stays as that call leaves it.  With libraries that leave
    their arguments alone the call is the by-value [draw_plot].  And the
    world changes through the scatter call only: as the seed is an integer,
    the clustering leaves it, so it is the world as found when no scatter
    call is made, and the world that one scatter call leaves otherwise. *)
Theorem draw_plot_leaves_arrays (R : ref_library sample coord color world)
  L0 k g w :
  let instance := {| n_clusters := k; random_state := Some 102 |} in
  let fit := KMeans_fit_predict instance (data_data g) in
  let x := (mds_pos g).*1 in
  let y := (mds_pos g).*2 in
  let o := draw_plot_ref R k g w in
  colors (globals o) = colors g /\
  mds (globals o) = mds g /\
  data_data (globals o) = (fit_predict_ref R instance (data_data g) w).1.2 /\
  (keeps_features R -> data_data (globals o) = data_data g) /\
  (keeps_points R -> mds_pos (globals o) = mds_pos g) /\
  (keeps_features R -> keeps_points R ->
   globals o = g /\ o = run (by_value R L0) (draw_plot k) g w) /\
  (fit_is_pure R ->
   (trace o = [fit] /\ ext_world o = w /\ exists e, value o = Exc e) \/
   (exists c,
      trace o = [fit; plt_scatter x y 20 c] /\
      ext_world o = (scatter_ref R x y 20 c w).2 /\
      value o = (scatter_ref R x y 20 c w).1.1)).
Proof.
  intros instance fit x y o. subst o. unfold draw_plot_ref.
  fold instance. fold fit. cbv zeta.
  destruct (fit_predict_ref R instance (data_data g) w) as [[r X'] w1]
    eqn:Hfit.
  assert (forall c, scatter_ref R x y 20 c w1 =
                    ((scatter_ref R x y 20 c w1).1.1,
                     ((scatter_ref R x y 20 c w1).1.2.1,
                      (scatter_ref R x y 20 c w1).1.2.2),
                     (scatter_ref R x y 20 c w1).2)) as Hsc.
  { intros c. destruct (scatter_ref R x y 20 c w1) as [[r2 [x' y']] w2].
    reflexivity. }
  split; [|split; [|split; [|split; [|split; [|split]]]]].
  - destruct r as [ls|e]; [|reflexivity]. simpl.
    destruct (comprehension _ ls) as [c|e]; [|reflexivity].
    fold x. fold y. rewrite (Hsc c). reflexivity.
  - destruct r as [ls|e]; [|reflexivity]. simpl.
    destruct (comprehension _ ls) as [c|e]; [|reflexivity].
    fold x. fold y. rewrite (Hsc c). reflexivity.
  - destruct r as [ls|e]; [|reflexivity]. simpl.
    destruct (comprehension _ ls) as [c|e]; [|reflexivity].
    fold x. fold y. rewrite (Hsc c). reflexivity.
  - intros Hkeep. specialize (Hkeep instance (data_data g) w).
    rewrite Hfit in Hkeep. simpl in Hkeep. subst X'.
    destruct r as [ls|e]; [|reflexivity]. simpl.
    destruct (comprehension _ ls) as [c|e]; [|reflexivity].
    fold x. fold y. rewrite (Hsc c). reflexivity.
  - intros Hpts.
    destruct r as [ls|e]; [|reflexivity]. simpl.
    destruct (comprehension _ ls) as [c|e]; [|reflexivity].
    fold x. fold y. rewrite (Hsc c). simpl.
    rewrite (Hpts x y 20 c w1). simpl. apply zip_fst_snd.
  - intros Hkeep Hpts. specialize (Hkeep instance (data_data g) w).
    rewrite Hfit in Hkeep. simpl in Hkeep. subst X'.
    assert (set_data_data (data_data g) g = g) as Hsame
      by (destruct g; reflexivity).
    rewrite run_draw_plot. cbv zeta. fold instance. fold fit.
    simpl. rewrite Hfit. rewrite Hsame.
    destruct r as [ls|e]; [|split; reflexivity].
    destruct (comprehension _ ls) as [c|e]; [|split; reflexivity].
    fold x. fold y. rewrite (Hsc c).
    pose proof (Hpts x y 20 c w1) as Hxy.
    destruct (scatter_ref R x y 20 c w1) as [[r2 [x' y']] w2].
    simpl in Hxy. injection Hxy as -> ->. simpl.
    assert (set_mds_pos (zip x y) g = g) as ->.
    { subst x y. rewrite zip_fst_snd. destruct g; reflexivity. }
    split; reflexivity.
  - intros Hpure. specialize (Hpure instance (data_data g) w
                                (mk_is_Some _ _ eq_refl)).
    rewrite Hfit in Hpure. simpl in Hpure. subst w1.
    destruct r as [ls|e]; [|left; eauto]. simpl.
    destruct (comprehension _ ls) as [c|e]; [|left; eauto].
    fold x. fold y. right. exists c. rewrite (Hsc c). simpl.
    split; [reflexivity|]. split; reflexivity.
Qed.

(** C9.  Each call builds its own estimator from its argument and the seed
    alone, so with a seeded K-Means the assignment for [k] after any
    sequence of earlier slider changes is the one a first call would give,
    and so are the library calls made. *)
Theorem history_independent L (ks : list Z) k g w :
  kmeans_seeded L ->
  let s := explore L ks g w in
  assignment L k s.1 s.2 = assignment L k g w /\
  trace (run L (draw_plot k) s.1 s.2) = trace (run L (draw_plot k) g w).
Proof.
  intros Hseed s. subst s. rewrite explore_globals.
  split; [apply seeded_assignment, Hseed|].
  apply draw_plot_trace_seeded, Hseed.
Qed.

(** C10.  The body of [draw_plot] has no test on its argument: it reads the
    globals and calls [fit_predict] on an estimator built from that very
    argument, then draws.  The bounds 1 and 10 occur only in the slider
    handed to [interact]. *)
Theorem draw_plot_forwards_argument k :
  draw_plot (sample := sample) (coord := coord) (color := color) k =
    Read (fun g =>
      Call (KMeans_fit_predict
              {| n_clusters := k; random_state := Some 102 |} (data_data g))
           drawing_step) /\
  (forall L g w,
     hd_error (trace (run L (draw_plot k) g w)) =
     Some (KMeans_fit_predict
             {| n_clusters := k; random_state := Some 102 |} (data_data g))) /\
  n_clusters_slider = (1, 10) /\
  (forall v : Z, slider_admits n_clusters_slider v = true <-> 1 <= v <= 10).
Proof.
  split; [reflexivity|].
  split; [intros L g w; apply draw_plot_first_call|].
  split; [reflexivity|]. apply slider_range.
Qed.

End Explorer.

(** No library makes [draw_plot] behave as [rejected] words it: the
    clustering call is always in the trace. *)
Lemma never_rejected {sample coord color world : Type}
  (L : library sample coord color world) (k : Z)
  (g : namespace sample coord color) (w : world) :
  ~ rejected L k g w.
Proof.
  unfold rejected. intros (_ & Hnone & _).
  pose proof (draw_plot_first_call L k g w) as Hhd.
  destruct (trace (run L (draw_plot k) g w)) as [|c t]; [discriminate|].
  injection Hhd as ->. discriminate.
Qed.

(** ** The concrete session keeps the promises *)

Module DemoFacts.

Import Demo.

Lemma fits : kmeans_fits lib.
Proof.
  intros instance X w _ [H1 Hn]. simpl.
  destruct (Z.leb_spec 1 (n_clusters instance)) as [_|]; [|lia].
  destruct (Z.leb_spec (n_clusters instance) (Z.of_nat (length X)))
    as [_|]; [|lia].
  simpl. eauto.
Qed.

Lemma labels : kmeans_labels lib.
Proof.
  intros instance X w ls w'. simpl.
  destruct (Z.leb_spec 1 (n_clusters instance)) as [H1|];
    [|simpl; discriminate].
  destruct (_ <=? _); simpl; [|discriminate].
  intros [= <- _]. split.
  - rewrite length_fmap, length_seq. reflexivity.
  - apply Forall_fmap, Forall_forall. intros i _. simpl.
    apply Z.mod_pos_bound. lia.
Qed.

Lemma seeded : kmeans_seeded lib.
Proof.
  intros instance X w1 w2 _. simpl.
  destruct (_ && _); reflexivity.
Qed.

Lemma embeds : mds_embeds lib.
Proof.
  intros m X w pos w'. simpl. intros [= <- _]. apply length_fmap.
Qed.

Lemma provides : palette_provides lib.
Proof.
  intros n w cs w' Hn. simpl.
  destruct (Z.leb_spec 0 n) as [_|]; [|lia].
  intros [= <- _]. rewrite length_fmap, length_seq. lia.
Qed.

Example cell_init_runs : value (run lib cell_init g0 w0) = Ok tt.
Proof. reflexivity. Qed.

Example g_colors : colors g = [0; 1; 2; 3; 4; 5; 6; 7; 8; 9].
Proof. reflexivity. Qed.

Example g_samples : n_samples g = 12%nat.
Proof. reflexivity. Qed.

Example assignment_3 :
  assignment lib 3 g w0 = Ok [0; 1; 2; 0; 1; 2; 0; 1; 2; 0; 1; 2].
Proof. reflexivity. Qed.

Example draw_plot_11 :
  value (run lib (draw_plot 11) g w0) = Exc IndexError /\
  trace (run lib (draw_plot 11) g w0) =
    [KMeans_fit_predict {| n_clusters := 11; random_state := Some 102 |}
       (data_data g)].
Proof. split; reflexivity. Qed.

End DemoFacts.

(** ** The session closer to the notebook's libraries keeps them too *)

Module PyplotFacts.

Import Pyplot.

Lemma pyplot_fits : kmeans_fits lib.
Proof.
  intros instance X w _ [H1 Hn]. simpl.
  destruct (Z.leb_spec 1 (n_clusters instance)) as [_|]; [|lia].
  destruct (Z.leb_spec (n_clusters instance) (Z.of_nat (length X)))
    as [_|]; [|lia].
  simpl. eauto.
Qed.

Lemma pyplot_labels : kmeans_labels lib.
Proof.
  intros instance X w ls w'. simpl.
  destruct (Z.leb_spec 1 (n_clusters instance)) as [H1|];
    [|simpl; discriminate].
  destruct (_ <=? _); simpl; [|discriminate].
  intros [= <- _]. split.
  - rewrite length_fmap, length_seq. reflexivity.
  - apply Forall_fmap, Forall_forall. intros i _. simpl.
    apply Z.mod_pos_bound. lia.
Qed.

Lemma pyplot_embeds : mds_embeds lib.
Proof.
  intros m X w pos w'. simpl. intros [= <- _]. apply length_fmap.
Qed.

Lemma pyplot_provides : palette_provides lib.
Proof.
  intros n w cs w' Hn. simpl.
  intros [= <- _]. rewrite length_fmap, length_seq. lia.
Qed.

Lemma ref_keeps_features : keeps_features ref.
Proof.
  intros instance X w. unfold ref. cbn [fit_predict_ref].
  destruct (fit_predict lib instance X w). reflexivity.
Qed.

Lemma ref_keeps_points : keeps_points ref.
Proof.
  intros x y s c w. unfold ref. cbn [scatter_ref].
  destruct (scatter lib x y s c w). reflexivity.
Qed.

Lemma ref_fit_is_pure : fit_is_pure ref.
Proof.
  intros instance X w _. unfold ref. cbn [fit_predict_ref]. simpl.
  destruct (_ && _); reflexivity.
Qed.

Example pyplot_cell_init_runs : value (run lib cell_init g0 w0) = Ok tt.
Proof. reflexivity. Qed.

Example pyplot_g_colors : colors g = [0; 1; 2; 3; 4; 5; 0; 1; 2; 3].
Proof. reflexivity. Qed.

Example markers_after_two_changes :
  length (rendered w2) = 12%nat /\
  length (rendered (ext_world (run lib (draw_plot 3) g w2))) = 24%nat.
Proof. split; reflexivity. Qed.

(** With the six-colour palette of the earlier cells still bound, a count
    of 7 fails in the colour lookup. *)
Example draw_plot_7_short_palette :
  value (run lib (draw_plot 7) g0 w0) = Exc IndexError.
Proof. reflexivity. Qed.

End PyplotFacts.

(** C1, as the specification words it, fails at 11 (and at 0): the call
    reaches the clustering routine. *)
Lemma draw_plot_11_not_rejected :
  ~ rejected Demo.lib 11 Demo.g Demo.w0 /\
  ~ rejected Demo.lib 0 Demo.g Demo.w0.
Proof. split; apply never_rejected. Qed.

Lemma assignment_labels_in_range_witness :
  exists ls : list Z,
    assignment Demo.lib 10 Demo.g Demo.w0 = Ok ls /\
    Forall (fun l => 0 <= l < 10) ls /\ Forall (fun l => l < 10) ls.
Proof.
  destruct (assignment_labels_in_range Demo.lib 10 Demo.g Demo.w0)
    as [Hall Hsome].
  - exact DemoFacts.labels.
  - lia.
  - destruct Hsome as [ls Hls].
    + exact DemoFacts.fits.
    + vm_compute. discriminate.
    + exists ls. split; [exact Hls|]. apply Hall, Hls.
Defined.

Lemma assignment_one_label_per_sample_witness :
  let g := globals (run Demo.lib cell_init Demo.g0 Demo.w0) in
  length (mds_pos g) = n_samples g /\
  exists ls : list Z,
    assignment Demo.lib 3 g Demo.w0 = Ok ls /\
    length ls = n_samples g /\ length ls = length (mds_pos g).
Proof.
  destruct (assignment_one_label_per_sample
              Demo.lib Demo.g0 Demo.w0 3 Demo.w0)
    as (Hlayout & Hall & Hsome).
  - exact DemoFacts.labels.
  - exact DemoFacts.embeds.
  - reflexivity.
  - lia.
  - split; [exact Hlayout|].
    destruct Hsome as [ls Hls].
    + exact DemoFacts.fits.
    + vm_compute. discriminate.
    + exists ls. split; [exact Hls|]. apply Hall, Hls.
Defined.

Lemma same_count_same_assignment_witness :
  let o1 := run Demo.lib (draw_plot 3) Demo.g Demo.w0 in
  let o2 := run Demo.lib (draw_plot 3) (globals o1) (ext_world o1) in
  assignment Demo.lib 3 (globals o1) (ext_world o1)
    = assignment Demo.lib 3 Demo.g Demo.w0 /\
  trace o2 = trace o1 /\
  forall k' : Z,
    hd_error (trace (run Demo.lib (draw_plot k') Demo.g Demo.w0)) =
    Some (KMeans_fit_predict
            {| n_clusters := k'; random_state := Some 102 |}
            (data_data Demo.g)).
Proof.
  apply (same_count_same_assignment Demo.lib 3 Demo.g Demo.w0).
  exact DemoFacts.seeded.
Defined.

Lemma single_cluster_all_zero_witness :
  assignment Demo.lib 1 Demo.g Demo.w0 = Ok (replicate 12 0) /\
  forall ls : list Z,
    assignment Demo.lib 1 Demo.g Demo.w0 = Ok ls ->
    ls = replicate (n_samples Demo.g) 0 /\ length ls = n_samples Demo.g.
Proof.
  destruct (single_cluster_all_zero Demo.lib Demo.g Demo.w0)
    as [Hall Hsome].
  - exact DemoFacts.labels.
  - split; [|exact Hall]. apply Hsome.
    + exact DemoFacts.fits.
    + vm_compute. lia.
Defined.



(** C7, as the specification words it, fails with a palette that repeats a
    six-colour cycle: the ten colours bound at the top of the cell are not
    pairwise distinct. *)
Lemma cycled_palette_not_distinct :
  value (run Pyplot.lib cell_init Pyplot.g0 Pyplot.w0) = Ok tt /\
  ~ ten_distinct_colors Pyplot.g.
Proof.
  split; [reflexivity|]. intros [_ Hnodup].
  change (colors Pyplot.g) with [0; 1; 2; 3; 4; 5; 0; 1; 2; 3] in Hnodup.
  apply NoDup_cons_1_1 in Hnodup. apply Hnodup.
  repeat constructor.
Qed.

Lemma palette_fixed_and_indexable_witness :
  let g := globals (run Pyplot.lib cell_init Pyplot.g0 Pyplot.w0) in
  length (colors g) = 10%nat /\
  (forall (ks : list Z) w, colors (explore Pyplot.lib ks g w).1 = colors g) /\
  exists c,
    comprehension (fun i => getitem (colors g) i)
      [0; 1; 2; 3; 4; 5; 6; 7; 8; 9; 0; 1] = Ok c /\
    trace (run Pyplot.lib (draw_plot 10) g Pyplot.w2) =
      [KMeans_fit_predict {| n_clusters := 10; random_state := Some 102 |}
         (data_data g);
       plt_scatter (mds_pos g).*1 (mds_pos g).*2 20 c].
Proof.
  destruct (palette_fixed_and_indexable Pyplot.lib Pyplot.g0 Pyplot.w0)
    as (Hten & Hfixed & Hidx).
  - exact PyplotFacts.pyplot_provides.
  - exact PyplotFacts.pyplot_labels.
  - reflexivity.
  - split; [exact Hten|]. split; [exact Hfixed|].
    destruct (Hidx [2] [] 10 [0; 1; 2; 3; 4; 5; 6; 7; 8; 9; 0; 1] Pyplot.w2)
      as [_ Hc]; [lia|reflexivity|exact Hc].
Defined.

Lemma draw_plot_leaves_arrays_witness :
  globals (draw_plot_ref Pyplot.ref 3 Pyplot.g Pyplot.w2) = Pyplot.g /\
  draw_plot_ref Pyplot.ref 3 Pyplot.g Pyplot.w2
    = run (by_value Pyplot.ref Pyplot.lib) (draw_plot 3) Pyplot.g Pyplot.w2.
Proof.
  apply (draw_plot_leaves_arrays Pyplot.ref Pyplot.lib 3 Pyplot.g Pyplot.w2).
  - exact PyplotFacts.ref_keeps_features.
  - exact PyplotFacts.ref_keeps_points.
Defined.

Lemma history_independent_witness :
  let s := explore Demo.lib [5; 11; 0; 2] Demo.g Demo.w0 in
  assignment Demo.lib 3 s.1 s.2 = assignment Demo.lib 3 Demo.g Demo.w0 /\
  trace (run Demo.lib (draw_plot 3) s.1 s.2)
    = trace (run Demo.lib (draw_plot 3) Demo.g Demo.w0).
Proof.
  apply (history_independent Demo.lib [5; 11; 0; 2] 3 Demo.g Demo.w0).
  exact DemoFacts.seeded.
Defined.

(** ** More on indexing and the colour lookup *)

Section Indexing.

Context {A : Type}.
Implicit Types (l : list A) (i : Z).

Lemma getitem_indexes l i :
  indexes l i ->
  exists a, getitem l i = Ok a /\
            l !! Z.to_nat (position (Z.of_nat (length l)) i) = Some a.
Proof.
  unfold indexes, getitem, position. intros Hi.
  destruct (Z.ltb_spec i 0) as [Hneg|Hpos].
  - destruct (Z.ltb_spec (i + Z.of_nat (length l)) 0); [lia|].
    destruct (Z.leb_spec (Z.of_nat (length l)) (i + Z.of_nat (length l)));
      [lia|]. simpl.
    destruct (l !! _) as [a|] eqn:Hl; [eauto|].
    apply lookup_ge_None in Hl. lia.
  - destruct (Z.ltb_spec i 0); [lia|].
    destruct (Z.leb_spec (Z.of_nat (length l)) i); [lia|]. simpl.
    destruct (l !! _) as [a|] eqn:Hl; [eauto|].
    apply lookup_ge_None in Hl. lia.
Qed.

Lemma getitem_Ok_indexes l i (a : A) :
  getitem l i = Ok a ->
  indexes l i /\ l !! Z.to_nat (position (Z.of_nat (length l)) i) = Some a.
Proof.
  unfold indexes, getitem, position.
  destruct (Z.ltb_spec i 0) as [Hneg|Hpos].
  - destruct (Z.ltb_spec (i + Z.of_nat (length l)) 0); [discriminate|].
    destruct (Z.leb_spec (Z.of_nat (length l)) (i + Z.of_nat (length l)));
      [discriminate|]. simpl.
    destruct (l !! _) as [a'|]; [|discriminate].
    intros [= ->]. split; [lia|reflexivity].
  - destruct (Z.ltb_spec i 0); [lia|].
    destruct (Z.leb_spec (Z.of_nat (length l)) i); [discriminate|]. simpl.
    destruct (l !! _) as [a'|]; [|discriminate].
    intros [= ->]. split; [lia|reflexivity].
Qed.

Lemma getitem_not_indexes l i : ~ indexes l i -> getitem l i = Exc IndexError.
Proof.
  intros Hout. destruct (getitem l i) as [a|e] eqn:Hget.
  - apply getitem_Ok_indexes in Hget as [Hin _]. contradiction.
  - apply getitem_raises in Hget as ->. reflexivity.
Qed.

(** A natural number indexes like a lookup. *)
Lemma getitem_nat l (n : nat) :
  getitem l (Z.of_nat n) =
  match l !! n with Some a => Ok a | None => Exc IndexError end.
Proof.
  destruct (l !! n) as [a|] eqn:Hl.
  - destruct (getitem_indexes l (Z.of_nat n)) as (a' & -> & Ha').
    + apply lookup_lt_Some in Hl. unfold indexes. lia.
    + unfold position in Ha'.
      destruct (Z.ltb_spec (Z.of_nat n) 0); [lia|].
      rewrite Nat2Z.id, Hl in Ha'. congruence.
  - apply getitem_not_indexes. apply lookup_ge_None in Hl.
    unfold indexes. lia.
Qed.

End Indexing.

Section ColorLookup.

Context {color : Type}.
Implicit Types (cs c : list color) (ls : list Z).

Lemma color_lookup_Ok_iff cs ls :
  (exists c, comprehension (fun i => getitem cs i) ls = Ok c)
  <-> Forall (indexes cs) ls.
Proof.
  split.
  - intros [c Hc]. apply comprehension_Ok in Hc.
    induction Hc as [|l b ls bs Hl _ IH]; constructor; [|exact IH].
    apply (getitem_Ok_indexes cs l b Hl).
  - intros Hall. apply comprehension_total.
    eapply Forall_impl; [exact Hall|]. simpl. intros l Hl.
    destruct (getitem_indexes cs l Hl) as (a & Ha & _). eauto.
Qed.

Lemma color_lookup_raises cs ls (e : exception) :
  comprehension (fun i => getitem cs i) ls = Exc e -> e = IndexError.
Proof.
  apply comprehension_raises. intros i e'. apply getitem_raises.
Qed.

Lemma color_lookup_Exc_iff cs ls :
  comprehension (fun i => getitem cs i) ls = Exc IndexError
  <-> Exists (fun l => ~ indexes cs l) ls.
Proof.
  split.
  - induction ls as [|l ls IH]; simpl; [discriminate|].
    destruct (getitem cs l) as [b|e] eqn:Hl.
    + destruct (comprehension _ ls) as [bs|e]; [discriminate|].
      intros [= ->]. right. apply IH. reflexivity.
    + intros _. left. intros Hin.
      destruct (getitem_indexes cs l Hin) as (a & Ha & _). congruence.
  - induction 1 as [l ls Hout|l ls _ IH]; simpl.
    + rewrite (getitem_not_indexes cs l Hout). reflexivity.
    + destruct (getitem cs l) as [b|e] eqn:Hl.
      * rewrite IH. reflexivity.
      * apply getitem_raises in Hl as ->. reflexivity.
Qed.

Lemma color_lookup_length cs ls c :
  comprehension (fun i => getitem cs i) ls = Ok c -> length c = length ls.
Proof.
  intros Hc. apply comprehension_Ok in Hc.
  symmetry. eapply Forall2_length, Hc.
Qed.

End ColorLookup.

(** X1.  The colour list [[colors[i] for i in labels]] is built exactly when
    every label indexes the palette, negative labels down to [-len(colors)]
    included; otherwise the expression raises IndexError, and it raises
    nothing else. *)
Theorem color_lookup_succeeds_iff {color : Type} (cs : list color)
  (ls : list Z) :
  ((exists c, comprehension (fun i => getitem cs i) ls = Ok c)
   <-> Forall (indexes cs) ls) /\
  (comprehension (fun i => getitem cs i) ls = Exc IndexError
   <-> Exists (fun l => ~ indexes cs l) ls) /\
  (forall e, comprehension (fun i => getitem cs i) ls = Exc e ->
             e = IndexError).
Proof.
  split; [apply color_lookup_Ok_iff|].
  split; [apply color_lookup_Exc_iff|].
  intros e. apply color_lookup_raises.
Qed.

(** X2.  When the colour list is built it has one colour per label, and the
    colour at place [j] is the palette entry at the position the label
    denotes: label [l >= 0] takes entry [l], label [l < 0] takes entry
    [len(colors) + l]. *)
Theorem color_lookup_elements {color : Type} (cs : list color)
  (ls : list Z) (c : list color) :
  comprehension (fun i => getitem cs i) ls = Ok c ->
  length c = length ls /\
  forall (j : nat) (l : Z),
    ls !! j = Some l ->
    indexes cs l /\
    c !! j = cs !! Z.to_nat (position (Z.of_nat (length cs)) l) /\
    is_Some (c !! j).
Proof.
  intros Hc. apply comprehension_Ok in Hc.
  split; [symmetry; eapply Forall2_length, Hc|].
  intros j l Hl.
  destruct (Forall2_lookup_l _ _ _ _ _ Hc Hl) as (a & Ha & Hget).
  apply getitem_Ok_indexes in Hget as [Hin Hpos].
  split; [exact Hin|]. rewrite Ha, Hpos. split; [reflexivity|eauto].
Qed.

(** X10.  The legend comprehension of line 284 reads entries 0, 1 and 2 of
    the palette and of the class names and nothing else: it returns the three
    patches pairing them, in order, exactly when both sequences have at least
    three entries, and raises IndexError when either is shorter. *)
Theorem legend_patches_spec {color name : Type} (cs : list color)
  (names : list name) :
  (forall ps,
     legend_patches cs names = Ok ps <->
     (3 <= length cs)%nat /\ (3 <= length names)%nat /\
     ps = zip_with Build_Patch (take 3 cs) (take 3 names)) /\
  (legend_patches cs names = Exc IndexError <->
   (length cs < 3)%nat \/ (length names < 3)%nat).
Proof.
  unfold legend_patches.
  change (range 3) with [Z.of_nat 0; Z.of_nat 1; Z.of_nat 2].
  cbn [comprehension]. rewrite !getitem_nat.
  destruct cs as [|c0 [|c1 [|c2 cs]]], names as [|n0 [|n1 [|n2 names]]];
    simpl; (split; [intros ps; split|split]);
    try (intros [= <-]); try discriminate;
    try (intros (? & ? & ?); exfalso; lia);
    try (intros (_ & _ & ->); reflexivity);
    try (intros [?|?]; exfalso; lia);
    try reflexivity;
    try (repeat split; lia);
    try (left; lia); try (right; lia).
Qed.

(** ** More on the cell and on [draw_plot] *)

Section Cell.

Context {sample coord color world : Type}.
Implicit Types (L : library sample coord color world).
Implicit Types (g : namespace sample coord color) (w : world) (k : Z).

(** The outcomes of the top of the cell, by what the two library calls do. *)
Lemma run_cell_init_cases L g w :
  run L cell_init g w =
  let pal := sns_color_palette 10 in
  let fit := MDS_fit_embedding (mds g) (data_data g) in
  match color_palette L 10 w with
  | (Exc e, w1) =>
      {| value := Exc e; globals := g; ext_world := w1; trace := [pal] |}
  | (Ok cs, w1) =>
      match fit_embedding L (mds g) (data_data g) w1 with
      | (Exc e, w2) =>
          {| value := Exc e; globals := set_colors cs g; ext_world := w2;
             trace := [pal; fit] |}
      | (Ok pos, w2) =>
          {| value := Ok tt; globals := set_mds_pos pos (set_colors cs g);
             ext_world := w2; trace := [pal; fit] |}
      end
  end.
Proof.
  unfold cell_init. simpl.
  destruct (color_palette L 10 w) as [[cs|e] w1]; [|reflexivity]. simpl.
  destruct (fit_embedding L (mds g) (data_data g) w1) as [[pos|e] w2];
    reflexivity.
Qed.

(** X3.  Once the clustering has returned labels, [draw_plot] reaches the
    scatter call exactly when every label indexes the palette.  If one does
    not, the call raises IndexError after the clustering and before any
    drawing, leaving the world as the clustering left it. *)
Theorem draw_plot_draws_iff L k g w (ls : list Z) (w1 : world) :
  fit_predict L {| n_clusters := k; random_state := Some 102 |}
    (data_data g) w = (Ok ls, w1) ->
  let fit := KMeans_fit_predict
               {| n_clusters := k; random_state := Some 102 |} (data_data g) in
  let o := run L (draw_plot k) g w in
  (Forall (indexes (colors g)) ls ->
   exists c,
     comprehension (fun i => getitem (colors g) i) ls = Ok c /\
     trace o = [fit; plt_scatter (mds_pos g).*1 (mds_pos g).*2 20 c]) /\
  (~ Forall (indexes (colors g)) ls ->
   value o = Exc IndexError /\ trace o = [fit] /\ ext_world o = w1).
Proof.
  intros Hfit fit o. subst o. rewrite run_draw_plot. cbv zeta. rewrite Hfit.
  pose proof (color_lookup_Ok_iff (colors g) ls) as Hok.
  destruct (comprehension _ ls) as [c|e] eqn:Hc.
  - split.
    + intros _. exists c. split; [reflexivity|].
      destruct (scatter L _ _ 20 c w1). reflexivity.
    + intros Hnot. exfalso. apply Hnot, Hok. eauto.
  - rewrite (color_lookup_raises _ _ _ Hc). split.
    + intros Hall. apply Hok in Hall as [c Hc']. discriminate.
    + intros _. auto.
Qed.

(** A scatter call in the trace of [draw_plot] is the one of line 350. *)
Lemma draw_plot_scatter_inv L k g w (x y : list coord) (s : Z)
  (c : list color) :
  In (plt_scatter x y s c) (trace (run L (draw_plot k) g w)) ->
  x = (mds_pos g).*1 /\ y = (mds_pos g).*2 /\ s = 20 /\
  exists ls,
    assignment L k g w = Ok ls /\
    comprehension (fun i => getitem (colors g) i) ls = Ok c.
Proof.
  rewrite run_draw_plot. cbv zeta.
  destruct (fit_predict L _ (data_data g) w) as [[ls|e] w1] eqn:Hfit;
    [|simpl; intros [[=]|[]]].
  destruct (comprehension _ ls) as [c'|e] eqn:Hc;
    [|simpl; intros [[=]|[]]].
  destruct (scatter L _ _ 20 c' w1) as [r w2]. simpl.
  intros [[=]|[[= <- <- <- <-]|[]]].
  split; [reflexivity|]. split; [reflexivity|]. split; [reflexivity|].
  exists ls. split; [apply assignment_fit; eauto|exact Hc].
Qed.

(** X4.  Every scatter call [draw_plot] makes has the two columns of the
    layout as [x] and [y], so these always have equal length, marker size 20,
    and as colours the palette lookup of the assignment, one colour per
    label. *)
Theorem draw_plot_scatter_arguments L k g w (x y : list coord) (s : Z)
  (c : list color) :
  In (plt_scatter x y s c) (trace (run L (draw_plot k) g w)) ->
  x = (mds_pos g).*1 /\ y = (mds_pos g).*2 /\
  length x = length y /\ s = 20 /\
  exists ls,
    assignment L k g w = Ok ls /\
    comprehension (fun i => getitem (colors g) i) ls = Ok c /\
    length c = length ls.
Proof.
  intros Hin.
  destruct (draw_plot_scatter_inv L k g w x y s c Hin)
    as (-> & -> & -> & ls & Hls & Hc).
  split; [reflexivity|]. split; [reflexivity|].
  split; [rewrite !length_fmap; reflexivity|]. split; [reflexivity|].
  exists ls. split; [exact Hls|]. split; [exact Hc|].
  apply (color_lookup_length _ _ _ Hc).
Qed.

(** X5.  After the top of the cell has run, every scatter call of
    [draw_plot], for any count whatever, carries as many colours as points,
    one per sample. *)
Theorem scatter_colors_match_points L g0 w0 k w (x y : list coord) (s : Z)
  (c : list color) :
  kmeans_labels L -> mds_embeds L ->
  value (run L cell_init g0 w0) = Ok tt ->
  let g := globals (run L cell_init g0 w0) in
  In (plt_scatter x y s c) (trace (run L (draw_plot k) g w)) ->
  length c = length x /\ length x = n_samples g.
Proof.
  intros Hlab Hmds Hinit g Hin.
  destruct (run_cell_init L g0 w0 Hinit)
    as (cs & w1 & pos & w2 & _ & Hpos & Hg).
  fold g in Hg.
  assert (length (mds_pos g) = n_samples g) as Hlayout.
  { rewrite Hg. unfold n_samples. simpl. eapply Hmds, Hpos. }
  destruct (draw_plot_scatter_inv L k g w x y s c Hin)
    as (-> & _ & _ & ls & Hls & Hc).
  destruct (assignment_labels L k g w ls Hlab Hls) as [Hn _].
  rewrite length_fmap, Hlayout, (color_lookup_length _ _ _ Hc).
  split; [exact Hn|reflexivity].
Qed.

(** X7.  The top of the cell is not atomic.  If the palette call raises,
    nothing is rebound and MDS is not fitted.  If the palette call returns
    and the MDS fit raises, [colors] is already the new palette while
    [mds_pos] is still the old layout.  If both return, both names are
    rebound.  MDS is fitted on [data.data] with the estimator bound to
    [mds]. *)
Theorem cell_init_outcomes L g w :
  let o := run L cell_init g w in
  let pal := sns_color_palette 10 in
  let fit := MDS_fit_embedding (mds g) (data_data g) in
  (forall e w1,
     color_palette L 10 w = (Exc e, w1) ->
     o = {| value := Exc e; globals := g; ext_world := w1;
            trace := [pal] |}) /\
  (forall cs w1 e w2,
     color_palette L 10 w = (Ok cs, w1) ->
     fit_embedding L (mds g) (data_data g) w1 = (Exc e, w2) ->
     o = {| value := Exc e; globals := set_colors cs g; ext_world := w2;
            trace := [pal; fit] |} /\
     colors (globals o) = cs /\ mds_pos (globals o) = mds_pos g) /\
  (forall cs w1 pos w2,
     color_palette L 10 w = (Ok cs, w1) ->
     fit_embedding L (mds g) (data_data g) w1 = (Ok pos, w2) ->
     o = {| value := Ok tt; globals := set_mds_pos pos (set_colors cs g);
            ext_world := w2; trace := [pal; fit] |} /\
     colors (globals o) = cs /\ mds_pos (globals o) = pos).
Proof.
  intros o pal fit. subst o. rewrite run_cell_init_cases. cbv zeta.
  fold pal. fold fit.
  split; [|split].
  - intros e w1 ->. reflexivity.
  - intros cs w1 e w2 -> ->. repeat split.
  - intros cs w1 pos w2 -> ->. repeat split.
Qed.

(** X8.  When the top of the cell succeeds, its outcome does not depend on
    what [colors] and [mds_pos] were bound to before: two namespaces with
    the same [data.data] and [mds] give the same outcome, so re-running the
    cell replaces both bindings. *)
Theorem cell_init_forgets_old_bindings L g g' w :
  data_data g = data_data g' -> mds g = mds g' ->
  value (run L cell_init g w) = Ok tt ->
  run L cell_init g' w = run L cell_init g w.
Proof.
  intros Hdata Hmds. rewrite !run_cell_init_cases. cbv zeta.
  rewrite <- Hdata, <- Hmds.
  destruct (color_palette L 10 w) as [[cs|e] w1]; [|discriminate].
  destruct (fit_embedding L (mds g) (data_data g) w1) as [[pos|e] w2];
    [|discriminate].
  intros _. unfold set_mds_pos, set_colors. simpl.
  rewrite <- Hdata, <- Hmds. reflexivity.
Qed.

End Cell.

(** ** The extra properties on the concrete session *)

Lemma color_lookup_elements_witness :
  length [10; 30; 30; 10] = length [0; -1; 2; -3] /\
  forall (j : nat) (l : Z),
    [0; -1; 2; -3] !! j = Some l ->
    indexes [10; 20; 30] l /\
    [10; 30; 30; 10] !! j
      = [10; 20; 30] !! Z.to_nat (position (Z.of_nat (length [10; 20; 30])) l)
    /\ is_Some ([10; 30; 30; 10] !! j).
Proof.
  apply (color_lookup_elements [10; 20; 30] [0; -1; 2; -3] [10; 30; 30; 10]).
  reflexivity.
Defined.

Lemma draw_plot_draws_iff_witness :
  value (run Demo.lib (draw_plot 11) Demo.g Demo.w0) = Exc IndexError /\
  trace (run Demo.lib (draw_plot 11) Demo.g Demo.w0) =
    [KMeans_fit_predict {| n_clusters := 11; random_state := Some 102 |}
       (data_data Demo.g)] /\
  ext_world (run Demo.lib (draw_plot 11) Demo.g Demo.w0) = Demo.w0.
Proof.
  destruct (draw_plot_draws_iff Demo.lib 11 Demo.g Demo.w0
              [0; 1; 2; 3; 4; 5; 6; 7; 8; 9; 10; 0] Demo.w0)
    as [_ Hfail].
  - reflexivity.
  - apply Hfail. intros Hall.
    apply (Forall_lookup_1 _ _ 10%nat 10) in Hall; [|reflexivity].
    unfold indexes in Hall. simpl in Hall. lia.
Defined.

Lemma draw_plot_scatter_arguments_witness :
  let x := (mds_pos Demo.g).*1 in
  let y := (mds_pos Demo.g).*2 in
  let c := [0; 1; 2; 0; 1; 2; 0; 1; 2; 0; 1; 2] in
  x = (mds_pos Demo.g).*1 /\ y = (mds_pos Demo.g).*2 /\
  length x = length y /\ 20 = 20 /\
  exists ls,
    assignment Demo.lib 3 Demo.g Demo.w0 = Ok ls /\
    comprehension (fun i => getitem (colors Demo.g) i) ls = Ok c /\
    length c = length ls.
Proof.
  apply (draw_plot_scatter_arguments Demo.lib 3 Demo.g Demo.w0).
  vm_compute. right. left. reflexivity.
Defined.

Lemma scatter_colors_match_points_witness :
  let g := globals (run Demo.lib cell_init Demo.g0 Demo.w0) in
  length [0; 1; 2; 3; 0; 1; 2; 3; 0; 1; 2; 3] = length (mds_pos g).*1 /\
  length (mds_pos g).*1 = n_samples g.
Proof.
  apply (scatter_colors_match_points Demo.lib Demo.g0 Demo.w0 4 Demo.w0
           _ (mds_pos Demo.g).*2 20).
  - exact DemoFacts.labels.
  - exact DemoFacts.embeds.
  - reflexivity.
  - vm_compute. right. left. reflexivity.
Defined.

Lemma cell_init_forgets_old_bindings_witness :
  run Demo.lib cell_init Demo.g Demo.w0
  = run Demo.lib cell_init Demo.g0 Demo.w0.
Proof.
  apply (cell_init_forgets_old_bindings Demo.lib Demo.g0 Demo.g Demo.w0);
    reflexivity.
Defined.
